(** * The EKS stack manifest ([__main__.py]) as a Rocq program

    The manifest is a flat script: it reads six values from the Pulumi
    configuration, calls three resource constructors and exports two stack
    outputs.  It is embedded here as a program in a small state-and-exception
    monad over the Pulumi runtime (configuration store, registered resources,
    stack outputs), statement by statement, and the properties of the stack
    are proved about that program. *)

From Stdlib Require Import ZArith Ascii String List Lia.
From stdpp Require Import base option gmap strings fin_maps.

Local Open Scope string_scope.
Local Open Scope Z_scope.

(** ** Python's [int(str)] on ASCII text

    [Config.get_int] converts the stored text with the builtin [int].  For
    a [str] of ASCII characters that is CPython's [PyLong_FromString] in
    base 10: leading blanks, one optional sign, decimal digits in which
    single underscores may separate digits, trailing blanks, end of text.
    The interpreter refuses literals of more than [int_max_str_digits]
    digits. *)
Module PyInt.

(** [Py_ISSPACE]: space and the control characters 9 to 13. *)
Definition Py_ISSPACE (c : ascii) : bool :=
  let n := Z.of_nat (nat_of_ascii c) in
  (n =? 32) || ((9 <=? n) && (n <=? 13)).

Definition digit_value (c : ascii) : option Z :=
  let n := Z.of_nat (nat_of_ascii c) in
  if (48 <=? n) && (n <=? 57) then Some (n - 48) else None.

Definition is_underscore (c : ascii) : bool :=
  Z.of_nat (nat_of_ascii c) =? 95.

Definition int_max_str_digits : Z := 4300.

Fixpoint skip_spaces (s : string) : string :=
  match s with
  | String c s' => if Py_ISSPACE c then skip_spaces s' else s
  | EmptyString => EmptyString
  end.

(** The digit scan: [prev_us] says that the previous character was an
    underscore; the result is the value, the number of digits and the
    text left, or [None] for a doubled or trailing underscore. *)
Fixpoint scan_digits (prev_us : bool) (acc digits : Z) (s : string)
  : option (Z * Z * string) :=
  match s with
  | String c s' =>
      if is_underscore c then
        if prev_us then None else scan_digits true acc digits s'
      else
        match digit_value c with
        | Some d => scan_digits false (10 * acc + d) (digits + 1) s'
        | None => if prev_us then None else Some (acc, digits, s)
        end
  | EmptyString => if prev_us then None else Some (acc, digits, s)
  end.

Definition strip_sign (s : string) : Z * string :=
  match s with
  | String "+" s' => (1, s')
  | String "-" s' => (-1, s')
  | _ => (1, s)
  end.

(** [int(v)]: [None] stands for the [ValueError]. *)
Definition int (v : string) : option Z :=
  let '(sign, body) := strip_sign (skip_spaces v) in
  match body with
  | String c _ =>
      if is_underscore c then None
      else
        match scan_digits false 0 0 body with
        | Some (n, digits, rest) =>
            if digits =? 0 then None
            else if int_max_str_digits <? digits then None
            else
              match skip_spaces rest with
              | EmptyString => Some (sign * n)
              | String _ _ => None
              end
        | None => None
        end
  | EmptyString => None
  end.

End PyInt.

(** ** Resource handles and their outputs

    A constructor returns a handle on the resource it registered; an
    attribute of the handle ([eks_vpc.vpc_id]) is an [Output]: a value known
    to the engine only, identified by the resource and the property name. *)
Record Handle := { res_type : string; res_name : string }.

Record Output := { out_resource : Handle; out_property : string }.

(** [ResourceOptions]: of the options only the explicit dependencies
    matter here. *)
Record ResourceOptions := { depends_on : list Handle }.

(** ** Argument classes of the providers *)

Module aws_eks.
Record AccessPolicyAssociationAccessScopeArgs := {
  type : string;
  namespaces : list string
}.
End aws_eks.

Module eks.
Inductive AuthenticationMode := CONFIG_MAP | API | API_AND_CONFIG_MAP.

Inductive AccessEntryType :=
  STANDARD | FARGATE_LINUX | EC2_LINUX | EC2_WINDOWS | EC2.

Record AccessPolicyAssociationArgs := {
  policy_arn : string;
  access_scope : aws_eks.AccessPolicyAssociationAccessScopeArgs
}.

Record AccessEntryArgs := {
  principal_arn : string;
  access_policies : gmap string AccessPolicyAssociationArgs;
  type : AccessEntryType
}.

(** The keyword arguments of the [eks.Cluster] call of the manifest. *)
Record ClusterArgs := {
  vpc_id : Output;
  authentication_mode : AuthenticationMode;
  public_subnet_ids : Output;
  private_subnet_ids : Output;
  instance_type : string;
  desired_capacity : Z;
  min_size : Z;
  max_size : Z;
  node_associate_public_ip_address : bool;
  endpoint_private_access : bool;
  endpoint_public_access : bool;
  access_entries : gmap string AccessEntryArgs
}.
End eks.

Module awsx_ec2.
Record VpcArgs := {
  enable_dns_hostnames : bool;
  cidr_block : string
}.
End awsx_ec2.

Module k8s.
Record ProviderArgs := { kubeconfig : Output }.
End k8s.

(** What the engine is told when a constructor runs. *)
Inductive Props :=
| VpcProps (args : awsx_ec2.VpcArgs)
| ClusterProps (args : eks.ClusterArgs)
| ProviderProps (args : k8s.ProviderArgs).

Definition type_token (p : Props) : string :=
  match p with
  | VpcProps _ => "awsx:ec2:Vpc"
  | ClusterProps _ => "eks:index:Cluster"
  | ProviderProps _ => "pulumi:providers:kubernetes"
  end.

Record Registration := {
  reg_name : string;
  reg_props : Props;
  reg_opts : option ResourceOptions
}.

Definition reg_handle (r : Registration) : Handle :=
  {| res_type := type_token (reg_props r); res_name := reg_name r |}.

(** ** The Pulumi runtime and the monad of the script

    The runtime holds the configuration of the project (text values by
    key), the resources registered so far, oldest first, and the stack
    outputs.  A statement either returns or raises; what it did to the
    runtime before raising stays done, as in Python. *)
Module pulumi.

Inductive Exception :=
| ConfigMissingError (key : string)
| ConfigTypeError (key value expected : string).

Record Runtime := {
  rt_config : gmap string string;
  rt_resources : list Registration;
  rt_outputs : gmap string Output
}.

Definition M (A : Type) : Type := Runtime → Runtime * (Exception + A).

Definition ret {A} (a : A) : M A := λ rt, (rt, inr a).

Definition bind {A B} (m : M A) (k : A → M B) : M B :=
  λ rt, match m rt with
        | (rt', inr a) => k a rt'
        | (rt', inl e) => (rt', inl e)
        end.

Definition raise {A} (e : Exception) : M A := λ rt, (rt, inl e).

(** [pulumi.Config()]: the view of the project's configuration. *)
Record Config_obj := { bag : gmap string string }.

Definition Config : M Config_obj :=
  λ rt, (rt, inr {| bag := rt_config rt |}).

(** [Config.get(key, default)] *)
Definition get (self : Config_obj) (key default : string) : M string :=
  match bag self !! key with
  | None => ret default
  | Some v => ret v
  end.

(** [Config.get_int(key, default)] *)
Definition get_int (self : Config_obj) (key : string) (default : Z) : M Z :=
  match bag self !! key with
  | None => ret default
  | Some v =>
      match PyInt.int v with
      | Some n => ret n
      | None => raise (ConfigTypeError key v "int")
      end
  end.

(** [Config.require(key)] *)
Definition require (self : Config_obj) (key : string) : M string :=
  match bag self !! key with
  | None => raise (ConfigMissingError key)
  | Some v => ret v
  end.

(** The registration every resource constructor performs. *)
Definition register_resource (name : string) (props : Props)
    (opts : option ResourceOptions) : M Handle :=
  λ rt,
    let r := {| reg_name := name; reg_props := props; reg_opts := opts |} in
    ({| rt_config := rt_config rt;
        rt_resources := rt_resources rt ++ [r];
        rt_outputs := rt_outputs rt |},
     inr (reg_handle r)).

(** [pulumi.export(name, value)]: an entry of the stack's output dict. *)
Definition export (name : string) (value : Output) : M unit :=
  λ rt,
    ({| rt_config := rt_config rt;
        rt_resources := rt_resources rt;
        rt_outputs := <[name := value]> (rt_outputs rt) |},
     inr tt).

(** The runtime a program starts in. *)
Definition fresh (cfg : gmap string string) : Runtime :=
  {| rt_config := cfg; rt_resources := []; rt_outputs := ∅ |}.

End pulumi.

#[global] Instance pulumi_ret : MRet pulumi.M := @pulumi.ret.
#[global] Instance pulumi_bind : MBind pulumi.M :=
  λ A B k m, pulumi.bind m k.

(** ** The constructors the manifest calls *)

Definition Vpc (name : string) (args : awsx_ec2.VpcArgs)
    (opts : option ResourceOptions) : pulumi.M Handle :=
  pulumi.register_resource name (VpcProps args) opts.

Definition Cluster (name : string) (args : eks.ClusterArgs)
    (opts : option ResourceOptions) : pulumi.M Handle :=
  pulumi.register_resource name (ClusterProps args) opts.

Definition Provider (name : string) (args : k8s.ProviderArgs)
    (opts : option ResourceOptions) : pulumi.M Handle :=
  pulumi.register_resource name (ProviderProps args) opts.

(** Attribute access on a handle. *)
Definition attr (h : Handle) (property : string) : Output :=
  {| out_resource := h; out_property := property |}.

(** ** The manifest *)

(** The module-level names the script has bound when it ends. *)
Record Globals := {
  min_cluster_size : Z;
  max_cluster_size : Z;
  desired_cluster_size : Z;
  eks_node_instance_type : string;
  vpc_network_cidr : string;
  sso_role_arn : string;
  eks_vpc : Handle;
  eks_cluster : Handle;
  cluster : Handle
}.

Definition main : pulumi.M Globals :=
  config ← pulumi.Config;
  min_cluster_size ← pulumi.get_int config "minClusterSize" 3;
  max_cluster_size ← pulumi.get_int config "maxClusterSize" 6;
  desired_cluster_size ← pulumi.get_int config "desiredClusterSize" 3;
  eks_node_instance_type ← pulumi.get config "eksNodeInstanceType" "t3.nano";
  vpc_network_cidr ← pulumi.get config "vpcNetworkCidr" "10.40.0.0/16";
  sso_role_arn ← pulumi.require config "ssoRoleArn";
  eks_vpc ← Vpc "eks-vpc"
    {| awsx_ec2.enable_dns_hostnames := true;
       awsx_ec2.cidr_block := vpc_network_cidr |} None;
  eks_cluster ← Cluster "eks-cluster"
    {| eks.vpc_id := attr eks_vpc "vpc_id";
       eks.authentication_mode := eks.API;
       eks.public_subnet_ids := attr eks_vpc "public_subnet_ids";
       eks.private_subnet_ids := attr eks_vpc "private_subnet_ids";
       eks.instance_type := eks_node_instance_type;
       eks.desired_capacity := desired_cluster_size;
       eks.min_size := min_cluster_size;
       eks.max_size := max_cluster_size;
       eks.node_associate_public_ip_address := false;
       eks.endpoint_private_access := false;
       eks.endpoint_public_access := true;
       eks.access_entries :=
         {[ "portaladmin" :=
              {| eks.principal_arn := sso_role_arn;
                 eks.access_policies :=
                   {[ "fullAccess" :=
                        {| eks.policy_arn :=
                             "arn:aws:eks::aws:cluster-access-policy/AmazonEKSClusterAdminPolicy";
                           eks.access_scope :=
                             {| aws_eks.type := "cluster";
                                aws_eks.namespaces := [] |} |} ]};
                 eks.type := eks.STANDARD |} ]} |} None;
  cluster ← Provider "cluster"
    {| k8s.kubeconfig := attr eks_cluster "kubeconfig" |} None;
  pulumi.export "kubeconfig" (attr eks_cluster "kubeconfig");;
  pulumi.export "vpcId" (attr eks_vpc "vpc_id");;
  pulumi.ret
    {| min_cluster_size := min_cluster_size;
       max_cluster_size := max_cluster_size;
       desired_cluster_size := desired_cluster_size;
       eks_node_instance_type := eks_node_instance_type;
       vpc_network_cidr := vpc_network_cidr;
       sso_role_arn := sso_role_arn;
       eks_vpc := eks_vpc;
       eks_cluster := eks_cluster;
       cluster := cluster |}.

(** Evaluating the stack for a configuration. *)
Definition evaluate (cfg : gmap string string)
  : pulumi.Runtime * (pulumi.Exception + Globals) :=
  main (pulumi.fresh cfg).

(** ** Reading a finished evaluation *)

Definition returned {A} (r : pulumi.Runtime * (pulumi.Exception + A)) : Prop :=
  ∃ a, r.2 = inr a.

Definition raised {A} (r : pulumi.Runtime * (pulumi.Exception + A)) : Prop :=
  ∃ e, r.2 = inl e.

Definition vpc_args (rt : pulumi.Runtime) : list awsx_ec2.VpcArgs :=
  omap (λ r, match reg_props r with VpcProps a => Some a | _ => None end)
       (pulumi.rt_resources rt).

Definition cluster_args (rt : pulumi.Runtime) : list eks.ClusterArgs :=
  omap (λ r, match reg_props r with ClusterProps a => Some a | _ => None end)
       (pulumi.rt_resources rt).

Definition provider_args (rt : pulumi.Runtime) : list k8s.ProviderArgs :=
  omap (λ r, match reg_props r with ProviderProps a => Some a | _ => None end)
       (pulumi.rt_resources rt).

(** The keys the script reads with [get_int]. *)
Definition int_keys : list string :=
  ["minClusterSize"; "maxClusterSize"; "desiredClusterSize"].

(** A key is set to text that [int] refuses. *)
Definition ill_typed (cfg : gmap string string) (key : string) : Prop :=
  ∃ v, cfg !! key = Some v ∧ PyInt.int v = None.

(** What [get_int] returns when it returns. *)
Definition int_setting (cfg : gmap string string) (key : string) (d : Z)
  : option Z :=
  match cfg !! key with
  | None => Some d
  | Some v => PyInt.int v
  end.

(** ** The declarations in closed form

    What a returning run has registered and exported, written as a function
    of the six resolved values; [evaluate_returns] below proves that the
    script produces exactly this. *)

Definition admin_policy_arn : string :=
  "arn:aws:eks::aws:cluster-access-policy/AmazonEKSClusterAdminPolicy".

Definition admin_entries (arn : string) : gmap string eks.AccessEntryArgs :=
  {[ "portaladmin" :=
       {| eks.principal_arn := arn;
          eks.access_policies :=
            {[ "fullAccess" :=
                 {| eks.policy_arn := admin_policy_arn;
                    eks.access_scope :=
                      {| aws_eks.type := "cluster";
                         aws_eks.namespaces := [] |} |} ]};
          eks.type := eks.STANDARD |} ]}.

Definition vpc_handle : Handle :=
  {| res_type := "awsx:ec2:Vpc"; res_name := "eks-vpc" |}.
Definition cluster_handle : Handle :=
  {| res_type := "eks:index:Cluster"; res_name := "eks-cluster" |}.
Definition provider_handle : Handle :=
  {| res_type := "pulumi:providers:kubernetes"; res_name := "cluster" |}.

Definition stack_resources (mn mx ds : Z) (ity cidr arn : string)
  : list Registration :=
  [ {| reg_name := "eks-vpc";
       reg_props := VpcProps {| awsx_ec2.enable_dns_hostnames := true;
                                awsx_ec2.cidr_block := cidr |};
       reg_opts := None |};
    {| reg_name := "eks-cluster";
       reg_props := ClusterProps
         {| eks.vpc_id := attr vpc_handle "vpc_id";
            eks.authentication_mode := eks.API;
            eks.public_subnet_ids := attr vpc_handle "public_subnet_ids";
            eks.private_subnet_ids := attr vpc_handle "private_subnet_ids";
            eks.instance_type := ity;
            eks.desired_capacity := ds;
            eks.min_size := mn;
            eks.max_size := mx;
            eks.node_associate_public_ip_address := false;
            eks.endpoint_private_access := false;
            eks.endpoint_public_access := true;
            eks.access_entries := admin_entries arn |};
       reg_opts := None |};
    {| reg_name := "cluster";
       reg_props := ProviderProps
         {| k8s.kubeconfig := attr cluster_handle "kubeconfig" |};
       reg_opts := None |} ].

Definition stack_outputs : gmap string Output :=
  <["vpcId" := attr vpc_handle "vpc_id"]>
    (<["kubeconfig" := attr cluster_handle "kubeconfig"]> ∅).

(** The runtime and the module-level names at the end of a returning run. *)
Definition final_runtime (cfg : gmap string string)
    (mn mx ds : Z) (arn : string) : pulumi.Runtime :=
  {| pulumi.rt_config := cfg;
     pulumi.rt_resources :=
       stack_resources mn mx ds
         (default "t3.nano" (cfg !! "eksNodeInstanceType"))
         (default "10.40.0.0/16" (cfg !! "vpcNetworkCidr")) arn;
     pulumi.rt_outputs := stack_outputs |}.

Definition final_globals (cfg : gmap string string)
    (mn mx ds : Z) (arn : string) : Globals :=
  {| min_cluster_size := mn;
     max_cluster_size := mx;
     desired_cluster_size := ds;
     eks_node_instance_type := default "t3.nano" (cfg !! "eksNodeInstanceType");
     vpc_network_cidr := default "10.40.0.0/16" (cfg !! "vpcNetworkCidr");
     sso_role_arn := arn;
     eks_vpc := vpc_handle;
     eks_cluster := cluster_handle;
     cluster := provider_handle |}.

(** The three ways an evaluation ends: everything declared, [ssoRoleArn]
    missing, or an integer key ill typed. *)
Inductive Outcome (cfg : gmap string string)
  : pulumi.Runtime * (pulumi.Exception + Globals) → Prop :=
| Declared mn mx ds arn :
    int_setting cfg "minClusterSize" 3 = Some mn →
    int_setting cfg "maxClusterSize" 6 = Some mx →
    int_setting cfg "desiredClusterSize" 3 = Some ds →
    cfg !! "ssoRoleArn" = Some arn →
    Outcome cfg (final_runtime cfg mn mx ds arn,
                 inr (final_globals cfg mn mx ds arn))
| Missing :
    (∀ key, key ∈ int_keys → ¬ ill_typed cfg key) →
    cfg !! "ssoRoleArn" = None →
    Outcome cfg (pulumi.fresh cfg,
                 inl (pulumi.ConfigMissingError "ssoRoleArn"))
| IllTyped key v :
    key ∈ int_keys → cfg !! key = Some v → PyInt.int v = None →
    Outcome cfg (pulumi.fresh cfg,
                 inl (pulumi.ConfigTypeError key v "int")).

(** A cluster whose access entries are one entry, for the principal
    [arn], with one policy association: the cluster-admin policy at cluster
    scope with no namespaces. *)
Definition grants_cluster_admin (arn : string) (a : eks.ClusterArgs) : Prop :=
  ∃ entry policy,
    eks.access_entries a = {[ "portaladmin" := entry ]} ∧
    size (eks.access_entries a) = 1%nat ∧
    eks.principal_arn entry = arn ∧
    eks.access_policies entry = {[ "fullAccess" := policy ]} ∧
    size (eks.access_policies entry) = 1%nat ∧
    eks.policy_arn policy
    = "arn:aws:eks::aws:cluster-access-policy/AmazonEKSClusterAdminPolicy" ∧
    aws_eks.type (eks.access_scope policy) = "cluster" ∧
    aws_eks.namespaces (eks.access_scope policy) = [].

(** ** Two runs side by side

    The runtimes of two evaluations differ in the configuration they hold;
    what is compared is what the runs declare and what they return. *)

Definition same_declarations (rt1 rt2 : pulumi.Runtime) : Prop :=
  pulumi.rt_resources rt1 = pulumi.rt_resources rt2 ∧
  pulumi.rt_outputs rt1 = pulumi.rt_outputs rt2.

Definition agree {A} (r1 r2 : pulumi.Runtime * (pulumi.Exception + A)) : Prop :=
  r1.2 = r2.2 ∧ same_declarations r1.1 r2.1.

(** The keys the script reads. *)
Definition config_keys : list string :=
  [ "minClusterSize"; "maxClusterSize"; "desiredClusterSize";
    "eksNodeInstanceType"; "vpcNetworkCidr"; "ssoRoleArn" ].

(** ** Sample configurations *)

Definition minimal_config : gmap string string :=
  {[ "ssoRoleArn" := "arn:aws:iam::123456789012:role/AWSReservedSSO_Admin" ]}.



Definition annotated_config : gmap string string :=
  <["owner" := "platform-team"]> minimal_config.

Definition sized_config : gmap string string :=
  <["minClusterSize" := "2"]> (<["maxClusterSize" := "10"]>
  (<["desiredClusterSize" := "4"]> (<["eksNodeInstanceType" := "t3.medium"]>
  (<["vpcNetworkCidr" := "10.0.0.0/16"]> minimal_config)))).

(** ** The script started in any runtime

    [main] is a program on runtimes, and a runtime may already hold
    registrations and outputs.  [extended_runtime] is the runtime a
    returning run leaves behind when started in [rt0]. *)
Definition extended_runtime (rt0 : pulumi.Runtime)
    (mn mx ds : Z) (arn : string) : pulumi.Runtime :=
  {| pulumi.rt_config := pulumi.rt_config rt0;
     pulumi.rt_resources :=
       pulumi.rt_resources rt0 ++
       stack_resources mn mx ds
         (default "t3.nano" (pulumi.rt_config rt0 !! "eksNodeInstanceType"))
         (default "10.40.0.0/16" (pulumi.rt_config rt0 !! "vpcNetworkCidr"))
         arn;
     pulumi.rt_outputs :=
       <["vpcId" := attr vpc_handle "vpc_id"]>
         (<["kubeconfig" := attr cluster_handle "kubeconfig"]>
            (pulumi.rt_outputs rt0)) |}.

(** ** References between declarations *)

(** The outputs of other resources among the arguments of a constructor. *)
Definition props_refs (p : Props) : list Output :=
  match p with
  | VpcProps _ => []
  | ClusterProps a =>
      [eks.vpc_id a; eks.public_subnet_ids a; eks.private_subnet_ids a]
  | ProviderProps a => [k8s.kubeconfig a]
  end.

(** Every registration refers only to resources in [declared] or
    registered before it in the list. *)
Fixpoint references_earlier (declared : list Handle)
    (rs : list Registration) : Prop :=
  match rs with
  | [] => True
  | r :: rs' =>
      Forall (λ o, out_resource o ∈ declared) (props_refs (reg_props r)) ∧
      references_earlier (declared ++ [reg_handle r]) rs'
  end.

(** Two clusters that differ at most in their access entries. *)
Definition same_but_access_entries (c1 c2 : eks.ClusterArgs) : Prop :=
  eks.vpc_id c1 = eks.vpc_id c2 ∧
  eks.authentication_mode c1 = eks.authentication_mode c2 ∧
  eks.public_subnet_ids c1 = eks.public_subnet_ids c2 ∧
  eks.private_subnet_ids c1 = eks.private_subnet_ids c2 ∧
  eks.instance_type c1 = eks.instance_type c2 ∧
  eks.desired_capacity c1 = eks.desired_capacity c2 ∧
  eks.min_size c1 = eks.min_size c2 ∧
  eks.max_size c1 = eks.max_size c2 ∧
  eks.node_associate_public_ip_address c1
  = eks.node_associate_public_ip_address c2 ∧
  eks.endpoint_private_access c1 = eks.endpoint_private_access c2 ∧
  eks.endpoint_public_access c1 = eks.endpoint_public_access c2.


Definition doubly_wrong_config : gmap string string :=
  <["maxClusterSize" := "six"]> (<["desiredClusterSize" := "3.0"]> ∅).

Definition cidr_config : gmap string string :=
  <["vpcNetworkCidr" := "10.0.0.0/16"]> minimal_config.

(** * Properties *)

(** ** The integer parser on samples *)

Example int_plain : PyInt.int "5" = Some 5.
Proof. reflexivity. Qed.

Example int_signed_padded : PyInt.int "  -12_000 " = Some (-12000).
Proof. reflexivity. Qed.

Example int_rejects_word : PyInt.int "abc" = None.
Proof. reflexivity. Qed.

Example int_rejects_empty : PyInt.int "" = None.
Proof. reflexivity. Qed.

Example int_rejects_float : PyInt.int "3.5" = None.
Proof. reflexivity. Qed.

Example int_rejects_trailing_underscore : PyInt.int "5_" = None.
Proof. reflexivity. Qed.

(** ** The configuration phase, statement by statement *)

Section Steps.
Context (cfg : gmap string string).
Let self := {| pulumi.bag := cfg |}.

Lemma get_int_returns key d n rt :
  int_setting cfg key d = Some n →
  pulumi.get_int self key d rt = (rt, inr n).
Proof.
  unfold int_setting, pulumi.get_int; simpl.
  destruct (cfg !! key) as [v|]; [|by intros [= <-]].
  by intros ->.
Qed.

Lemma get_int_raises key d rt :
  int_setting cfg key d = None →
  ∃ v, cfg !! key = Some v ∧ PyInt.int v = None ∧
       pulumi.get_int self key d rt
       = (rt, inl (pulumi.ConfigTypeError key v "int")).
Proof.
  unfold int_setting, pulumi.get_int; simpl.
  destruct (cfg !! key) as [v|]; [|done].
  intros Hv. exists v. by rewrite Hv.
Qed.

Lemma get_returns key d rt :
  pulumi.get self key d rt = (rt, inr (default d (cfg !! key))).
Proof. unfold pulumi.get; simpl. by destruct (cfg !! key). Qed.

Lemma require_returns key v rt :
  cfg !! key = Some v → pulumi.require self key rt = (rt, inr v).
Proof. unfold pulumi.require; simpl. by intros ->. Qed.

Lemma require_raises key rt :
  cfg !! key = None →
  pulumi.require self key rt = (rt, inl (pulumi.ConfigMissingError key)).
Proof. unfold pulumi.require; simpl. by intros ->. Qed.
End Steps.

Lemma int_setting_None cfg key d :
  int_setting cfg key d = None ↔ ill_typed cfg key.
Proof.
  unfold int_setting, ill_typed. split.
  - destruct (cfg !! key) as [v|]; [|done]. intros Hv. by exists v.
  - by intros (v & -> & ->).
Qed.

(** Running a bind whose first statement is known. *)
Lemma bind_returns {A B} (m : pulumi.M A) (k : A → pulumi.M B) rt rt' a :
  m rt = (rt', inr a) → (m ≫= k) rt = k a rt'.
Proof. unfold mbind, pulumi_bind, pulumi.bind. by intros ->. Qed.

Lemma bind_raises {A B} (m : pulumi.M A) (k : A → pulumi.M B) rt rt' e :
  m rt = (rt', inl e) → (m ≫= k) rt = (rt', inl e).
Proof. unfold mbind, pulumi_bind, pulumi.bind. by intros ->. Qed.

(** ** Every evaluation has one of the three outcomes *)

Ltac run_step lem :=
  erewrite bind_returns; [| by (apply lem || reflexivity)].

Lemma evaluate_returns cfg mn mx ds arn :
  int_setting cfg "minClusterSize" 3 = Some mn →
  int_setting cfg "maxClusterSize" 6 = Some mx →
  int_setting cfg "desiredClusterSize" 3 = Some ds →
  cfg !! "ssoRoleArn" = Some arn →
  evaluate cfg = (final_runtime cfg mn mx ds arn, inr (final_globals cfg mn mx ds arn)).
Proof.
  intros Hmn Hmx Hds Harn. unfold evaluate, main.
  erewrite bind_returns; [| reflexivity].
  run_step get_int_returns. run_step get_int_returns. run_step get_int_returns.
  run_step get_returns. run_step get_returns. run_step require_returns.
  reflexivity.
Qed.

Lemma evaluate_missing cfg mn mx ds :
  int_setting cfg "minClusterSize" 3 = Some mn →
  int_setting cfg "maxClusterSize" 6 = Some mx →
  int_setting cfg "desiredClusterSize" 3 = Some ds →
  cfg !! "ssoRoleArn" = None →
  evaluate cfg
  = (pulumi.fresh cfg, inl (pulumi.ConfigMissingError "ssoRoleArn")).
Proof.
  intros Hmn Hmx Hds Harn. unfold evaluate, main.
  erewrite bind_returns; [| reflexivity].
  run_step get_int_returns. run_step get_int_returns. run_step get_int_returns.
  run_step get_returns. run_step get_returns.
  erewrite bind_raises; [reflexivity | by apply require_raises].
Qed.

Lemma evaluate_ill_typed cfg :
  int_setting cfg "minClusterSize" 3 = None
  ∨ int_setting cfg "maxClusterSize" 6 = None
  ∨ int_setting cfg "desiredClusterSize" 3 = None →
  ∃ key v, key ∈ int_keys ∧ cfg !! key = Some v ∧ PyInt.int v = None ∧
    evaluate cfg
    = (pulumi.fresh cfg, inl (pulumi.ConfigTypeError key v "int")).
Proof.
  intros Hbad. unfold evaluate, main.
  erewrite bind_returns; [| reflexivity].
  destruct (int_setting cfg "minClusterSize" 3) as [mn|] eqn:Hmn.
  2:{ destruct (get_int_raises cfg _ _ (pulumi.fresh cfg) Hmn) as (v & Hk & Hv & Hrun).
      exists "minClusterSize", v. repeat split; [unfold int_keys; rewrite !elem_of_cons; auto | done..|].
      by erewrite bind_raises. }
  run_step get_int_returns.
  destruct (int_setting cfg "maxClusterSize" 6) as [mx|] eqn:Hmx.
  2:{ destruct (get_int_raises cfg _ _ (pulumi.fresh cfg) Hmx) as (v & Hk & Hv & Hrun).
      exists "maxClusterSize", v. repeat split; [unfold int_keys; rewrite !elem_of_cons; auto | done..|].
      by erewrite bind_raises. }
  run_step get_int_returns.
  destruct (int_setting cfg "desiredClusterSize" 3) as [ds|] eqn:Hds.
  2:{ destruct (get_int_raises cfg _ _ (pulumi.fresh cfg) Hds) as (v & Hk & Hv & Hrun).
      exists "desiredClusterSize", v. repeat split; [unfold int_keys; rewrite !elem_of_cons; auto | done..|].
      by erewrite bind_raises. }
  by destruct Hbad as [?|[?|?]].
Qed.

Lemma int_keys_well_typed cfg mn mx ds :
  int_setting cfg "minClusterSize" 3 = Some mn →
  int_setting cfg "maxClusterSize" 6 = Some mx →
  int_setting cfg "desiredClusterSize" 3 = Some ds →
  ∀ key, key ∈ int_keys → ¬ ill_typed cfg key.
Proof.
  intros Hmn Hmx Hds key Hkey Hill. unfold int_keys in Hkey.
  repeat (apply elem_of_cons in Hkey as [->|Hkey]).
  - apply (int_setting_None cfg _ 3) in Hill. congruence.
  - apply (int_setting_None cfg _ 6) in Hill. congruence.
  - apply (int_setting_None cfg _ 3) in Hill. congruence.
  - by apply elem_of_nil in Hkey.
Qed.

Lemma evaluate_outcome cfg : Outcome cfg (evaluate cfg).
Proof.
  destruct (int_setting cfg "minClusterSize" 3) as [mn|] eqn:Hmn;
  [destruct (int_setting cfg "maxClusterSize" 6) as [mx|] eqn:Hmx;
   [destruct (int_setting cfg "desiredClusterSize" 3) as [ds|] eqn:Hds|]|].
  - destruct (cfg !! "ssoRoleArn") as [arn|] eqn:Harn.
    + erewrite evaluate_returns by done. by constructor.
    + erewrite evaluate_missing by done. constructor; [|done].
      by eapply int_keys_well_typed.
  - destruct (evaluate_ill_typed cfg) as (k & v & ? & ? & ? & ->); [auto|].
    by constructor.
  - destruct (evaluate_ill_typed cfg) as (k & v & ? & ? & ? & ->); [auto|].
    by constructor.
  - destruct (evaluate_ill_typed cfg) as (k & v & ? & ? & ? & ->); [auto|].
    by constructor.
Qed.

(** Consequences of the three outcomes. *)

Lemma returned_iff cfg :
  returned (evaluate cfg) ↔
  is_Some (cfg !! "ssoRoleArn") ∧ ∀ key, key ∈ int_keys → ¬ ill_typed cfg key.
Proof.
  split.
  - intros [g Hg]. destruct (evaluate_outcome cfg); simplify_eq/=.
    split; [done|]. by eapply int_keys_well_typed.
  - intros [[arn Harn] Hok].
    destruct (evaluate_outcome cfg) as [| |key v Hkey Hk Hv];
      [by eexists | congruence |].
    destruct (Hok key Hkey). by exists v.
Qed.



Lemma returned_inv cfg rt g :
  evaluate cfg = (rt, inr g) →
  ∃ mn mx ds arn,
    int_setting cfg "minClusterSize" 3 = Some mn ∧
    int_setting cfg "maxClusterSize" 6 = Some mx ∧
    int_setting cfg "desiredClusterSize" 3 = Some ds ∧
    cfg !! "ssoRoleArn" = Some arn ∧
    rt = final_runtime cfg mn mx ds arn ∧
    g = final_globals cfg mn mx ds arn.
Proof.
  intros Hrun. destruct (evaluate_outcome cfg) as [mn mx ds arn| |];
    simplify_eq/=. by exists mn, mx, ds, arn.
Qed.


Example minimal_config_returns :
  (evaluate minimal_config).2
  = inr (final_globals minimal_config 3 6 3
           "arn:aws:iam::123456789012:role/AWSReservedSSO_Admin").
Proof. reflexivity. Qed.

Example empty_config_raises :
  evaluate ∅ = (pulumi.fresh ∅, inl (pulumi.ConfigMissingError "ssoRoleArn")).
Proof. reflexivity. Qed.

(** ** Declared clusters *)

Lemma admin_entries_grant mn mx ds ity cidr arn a :
  ClusterProps a ∈ reg_props <$> stack_resources mn mx ds ity cidr arn →
  grants_cluster_admin arn a.
Proof.
  simpl. rewrite !elem_of_cons, elem_of_nil.
  intros [?|[Ha|[?|[]]]]; try discriminate.
  injection Ha as ->. eexists _, _. simpl. unfold admin_entries.
  repeat split; apply map_size_singleton.
Qed.

Lemma cluster_args_elem_of rt a :
  a ∈ cluster_args rt ↔ ClusterProps a ∈ reg_props <$> pulumi.rt_resources rt.
Proof.
  unfold cluster_args. rewrite list_elem_of_omap, list_elem_of_fmap. split.
  - intros (r & Hr & Hp). exists r. split; [|done].
    destruct (reg_props r); by simplify_eq.
  - intros (r & Hp & Hr). exists r. split; [done|]. by rewrite <- Hp.
Qed.

(** ** Statements of two runs agree *)

Lemma bind_agree {A B} (m1 m2 : pulumi.M A) (k1 k2 : A → pulumi.M B) rt1 rt2 :
  agree (m1 rt1) (m2 rt2) →
  (∀ a rt1' rt2', same_declarations rt1' rt2' →
                  agree (k1 a rt1') (k2 a rt2')) →
  agree ((m1 ≫= k1) rt1) ((m2 ≫= k2) rt2).
Proof.
  unfold mbind, pulumi_bind, pulumi.bind. intros [Hres Hdecl] Hk.
  destruct (m1 rt1) as [rt1' [e1|a1]], (m2 rt2) as [rt2' [e2|a2]];
    simpl in *; simplify_eq.
  - done.
  - by apply Hk.
Qed.

Lemma get_int_agree cfg1 cfg2 key d rt1 rt2 :
  cfg1 !! key = cfg2 !! key → same_declarations rt1 rt2 →
  agree (pulumi.get_int {| pulumi.bag := cfg1 |} key d rt1)
        (pulumi.get_int {| pulumi.bag := cfg2 |} key d rt2).
Proof.
  unfold pulumi.get_int; simpl. intros ->.
  destruct (cfg2 !! key) as [v|]; [destruct (PyInt.int v)|]; by split.
Qed.

Lemma get_agree cfg1 cfg2 key d rt1 rt2 :
  cfg1 !! key = cfg2 !! key → same_declarations rt1 rt2 →
  agree (pulumi.get {| pulumi.bag := cfg1 |} key d rt1)
        (pulumi.get {| pulumi.bag := cfg2 |} key d rt2).
Proof.
  unfold pulumi.get; simpl. intros ->. by destruct (cfg2 !! key).
Qed.

Lemma require_agree cfg1 cfg2 key rt1 rt2 :
  cfg1 !! key = cfg2 !! key → same_declarations rt1 rt2 →
  agree (pulumi.require {| pulumi.bag := cfg1 |} key rt1)
        (pulumi.require {| pulumi.bag := cfg2 |} key rt2).
Proof.
  unfold pulumi.require; simpl. intros ->. by destruct (cfg2 !! key).
Qed.

Lemma register_resource_agree name props opts rt1 rt2 :
  same_declarations rt1 rt2 →
  agree (pulumi.register_resource name props opts rt1)
        (pulumi.register_resource name props opts rt2).
Proof.
  intros [Hres Hout]. unfold agree, same_declarations; simpl.
  by rewrite Hres, Hout.
Qed.

Lemma export_agree name value rt1 rt2 :
  same_declarations rt1 rt2 →
  agree (pulumi.export name value rt1) (pulumi.export name value rt2).
Proof.
  intros [Hres Hout]. unfold agree, same_declarations; simpl.
  by rewrite Hres, Hout.
Qed.

Lemma ret_agree {A} (a : A) rt1 rt2 :
  same_declarations rt1 rt2 → agree (pulumi.ret a rt1) (pulumi.ret a rt2).
Proof. by split. Qed.

(** * The claims *)



(** C2: for every configuration containing [ssoRoleArn], every cluster the
    evaluation declares has exactly one access entry, whose principal is
    the configured [ssoRoleArn] value and whose single policy is
    [AmazonEKSClusterAdminPolicy] with scope type ["cluster"] and an empty
    namespace list; and when the integer keys are well typed the
    evaluation returns and declares exactly one cluster. *)
Theorem admin_access_entry (cfg : gmap string string) (arn : string) :
  cfg !! "ssoRoleArn" = Some arn →
  (∀ a, a ∈ cluster_args (evaluate cfg).1 → grants_cluster_admin arn a)
  ∧ ((∀ key, key ∈ int_keys → ¬ ill_typed cfg key) →
       returned (evaluate cfg) ∧
       ∃ a, cluster_args (evaluate cfg).1 = [a] ∧ grants_cluster_admin arn a).
Proof.
  intros Harn.
  assert (Hall : ∀ a, a ∈ cluster_args (evaluate cfg).1 →
                      grants_cluster_admin arn a).
  { intros a. rewrite cluster_args_elem_of.
    destruct (evaluate_outcome cfg) as [mn mx ds arn' ? ? ? Harn'| |]; simpl.
    - assert (arn' = arn) as -> by congruence. apply admin_entries_grant.
    - by rewrite elem_of_nil.
    - by rewrite elem_of_nil. }
  split; [done|]. intros Hok.
  assert (Hret : returned (evaluate cfg)).
  { apply returned_iff. split; [by eexists | done]. }
  split; [done|]. destruct Hret as [g Hg].
  destruct (evaluate cfg) as [rt res] eqn:Hrun. simpl in *. subst res.
  apply returned_inv in Hrun as (mn & mx & ds & arn' & _ & _ & _ & _ & -> & _).
  eexists. split; [reflexivity|]. apply Hall. simpl. apply list_elem_of_here.
Qed.

Lemma admin_access_entry_witness :
  minimal_config !! "ssoRoleArn"
  = Some "arn:aws:iam::123456789012:role/AWSReservedSSO_Admin"
  ∧ ∃ a, cluster_args (evaluate minimal_config).1 = [a] ∧
         grants_cluster_admin
           "arn:aws:iam::123456789012:role/AWSReservedSSO_Admin" a.
Proof.
  split; [reflexivity|].
  apply (admin_access_entry minimal_config
           "arn:aws:iam::123456789012:role/AWSReservedSSO_Admin");
    [reflexivity|].
  intros key Hkey (v & Hv & _). unfold int_keys in Hkey.
  repeat (apply elem_of_cons in Hkey as [->|Hkey]); try discriminate Hv.
  by apply elem_of_nil in Hkey.
Defined.

(** C3: a configuration that sets [ssoRoleArn] and none of the other five
    keys evaluates with [min_cluster_size = 3], [max_cluster_size = 6],
    [desired_cluster_size = 3], [eks_node_instance_type = "t3.nano"] and
    [vpc_network_cidr = "10.40.0.0/16"]. *)
Theorem defaults_resolved (cfg : gmap string string) (arn : string) :
  cfg !! "ssoRoleArn" = Some arn →
  cfg !! "minClusterSize" = None →
  cfg !! "maxClusterSize" = None →
  cfg !! "desiredClusterSize" = None →
  cfg !! "eksNodeInstanceType" = None →
  cfg !! "vpcNetworkCidr" = None →
  ∃ rt g,
    evaluate cfg = (rt, inr g) ∧
    min_cluster_size g = 3 ∧
    max_cluster_size g = 6 ∧
    desired_cluster_size g = 3 ∧
    eks_node_instance_type g = "t3.nano" ∧
    vpc_network_cidr g = "10.40.0.0/16".
Proof.
  intros Harn Hmn Hmx Hds Hity Hcidr.
  exists (final_runtime cfg 3 6 3 arn), (final_globals cfg 3 6 3 arn).
  split.
  - apply evaluate_returns; unfold int_setting;
      rewrite ?Hmn, ?Hmx, ?Hds; done.
  - simpl. by rewrite Hity, Hcidr.
Qed.

Lemma defaults_resolved_witness :
  ∃ rt g,
    evaluate annotated_config = (rt, inr g) ∧
    min_cluster_size g = 3 ∧
    max_cluster_size g = 6 ∧
    desired_cluster_size g = 3 ∧
    eks_node_instance_type g = "t3.nano" ∧
    vpc_network_cidr g = "10.40.0.0/16".
Proof.
  apply (defaults_resolved annotated_config
           "arn:aws:iam::123456789012:role/AWSReservedSSO_Admin");
    reflexivity.
Defined.

(** C4: when an evaluation returns, the values resolved from the
    configuration (the stored integer or text, else the default) are the
    arguments of the constructors: [minClusterSize] is the cluster's
    [min_size], [maxClusterSize] its [max_size], [desiredClusterSize] its
    [desired_capacity], [eksNodeInstanceType] its [instance_type] and
    [vpcNetworkCidr] the VPC's [cidr_block]. *)
Theorem settings_passed_through
    (cfg : gmap string string) (rt : pulumi.Runtime) (g : Globals) :
  evaluate cfg = (rt, inr g) →
  ∃ v c,
    vpc_args rt = [v] ∧ cluster_args rt = [c] ∧
    int_setting cfg "minClusterSize" 3 = Some (eks.min_size c) ∧
    int_setting cfg "maxClusterSize" 6 = Some (eks.max_size c) ∧
    int_setting cfg "desiredClusterSize" 3 = Some (eks.desired_capacity c) ∧
    eks.instance_type c = default "t3.nano" (cfg !! "eksNodeInstanceType") ∧
    awsx_ec2.cidr_block v = default "10.40.0.0/16" (cfg !! "vpcNetworkCidr") ∧
    eks.min_size c = min_cluster_size g ∧
    eks.max_size c = max_cluster_size g ∧
    eks.desired_capacity c = desired_cluster_size g ∧
    eks.instance_type c = eks_node_instance_type g ∧
    awsx_ec2.cidr_block v = vpc_network_cidr g.
Proof.
  intros Hrun.
  apply returned_inv in Hrun
    as (mn & mx & ds & arn & Hmn & Hmx & Hds & _ & -> & ->).
  eexists _, _. split; [reflexivity|]. split; [reflexivity|]. simpl.
  by rewrite Hmn, Hmx, Hds.
Qed.

Lemma settings_passed_through_witness :
  ∃ v c,
    vpc_args (evaluate sized_config).1 = [v] ∧
    cluster_args (evaluate sized_config).1 = [c] ∧
    eks.min_size c = 2 ∧ eks.max_size c = 10 ∧ eks.desired_capacity c = 4 ∧
    eks.instance_type c = "t3.medium" ∧ awsx_ec2.cidr_block v = "10.0.0.0/16".
Proof.
  destruct (settings_passed_through sized_config
              (evaluate sized_config).1
              (final_globals sized_config 2 10 4
                 "arn:aws:iam::123456789012:role/AWSReservedSSO_Admin")
              eq_refl)
    as (v & c & Hv & Hc & Hmn & Hmx & Hds & Hity & Hcidr & _).
  exists v, c. repeat split; try done.
  - by injection Hmn.
  - by injection Hmx.
  - by injection Hds.
Defined.



(** C6: when an evaluation returns, the stack outputs are exactly
    ["kubeconfig"], bound to the [kubeconfig] of the declared cluster, and
    ["vpcId"], bound to the [vpc_id] of the declared VPC. *)
Theorem exactly_two_exports
    (cfg : gmap string string) (rt : pulumi.Runtime) (g : Globals) :
  evaluate cfg = (rt, inr g) →
  ∃ rv rc rp v c,
    pulumi.rt_resources rt = [rv; rc; rp] ∧
    reg_props rv = VpcProps v ∧ reg_props rc = ClusterProps c ∧
    eks_vpc g = reg_handle rv ∧ eks_cluster g = reg_handle rc ∧
    pulumi.rt_outputs rt !! "kubeconfig"
    = Some (attr (reg_handle rc) "kubeconfig") ∧
    pulumi.rt_outputs rt !! "vpcId" = Some (attr (reg_handle rv) "vpc_id") ∧
    dom (pulumi.rt_outputs rt) = {[ "kubeconfig"; "vpcId" ]} ∧
    size (pulumi.rt_outputs rt) = 2%nat.
Proof.
  intros Hrun.
  apply returned_inv in Hrun as (mn & mx & ds & arn & _ & _ & _ & _ & -> & ->).
  eexists _, _, _, _, _. simpl. unfold stack_outputs.
  repeat split; reflexivity.
Qed.

Lemma exactly_two_exports_witness :
  dom (pulumi.rt_outputs (evaluate minimal_config).1)
  = {[ "kubeconfig"; "vpcId" ]} ∧
  size (pulumi.rt_outputs (evaluate minimal_config).1) = 2%nat.
Proof.
  destruct (exactly_two_exports minimal_config
              (evaluate minimal_config).1
              (final_globals minimal_config 3 6 3
                 "arn:aws:iam::123456789012:role/AWSReservedSSO_Admin")
              eq_refl)
    as (rv & rc & rp & v & c & _ & _ & _ & _ & _ & _ & _ & Hdom & Hsize).
  by split.
Defined.

(** C7: when an evaluation returns, the VPC, the cluster and the
    Kubernetes provider are registered in that order, none with explicit
    options (so none with [depends_on]); the cluster's [vpc_id],
    [public_subnet_ids] and [private_subnet_ids] are those attributes of
    the VPC, and the provider's [kubeconfig] is the cluster's [kubeconfig],
    the value exported as ["kubeconfig"]. *)
Theorem dependencies_by_argument_threading
    (cfg : gmap string string) (rt : pulumi.Runtime) (g : Globals) :
  evaluate cfg = (rt, inr g) →
  ∃ rv rc rp v c p,
    pulumi.rt_resources rt = [rv; rc; rp] ∧
    reg_props rv = VpcProps v ∧
    reg_props rc = ClusterProps c ∧
    reg_props rp = ProviderProps p ∧
    reg_opts rv = None ∧ reg_opts rc = None ∧ reg_opts rp = None ∧
    eks.vpc_id c = attr (reg_handle rv) "vpc_id" ∧
    eks.public_subnet_ids c = attr (reg_handle rv) "public_subnet_ids" ∧
    eks.private_subnet_ids c = attr (reg_handle rv) "private_subnet_ids" ∧
    k8s.kubeconfig p = attr (reg_handle rc) "kubeconfig" ∧
    pulumi.rt_outputs rt !! "kubeconfig" = Some (k8s.kubeconfig p).
Proof.
  intros Hrun.
  apply returned_inv in Hrun as (mn & mx & ds & arn & _ & _ & _ & _ & -> & _).
  eexists _, _, _, _, _, _. simpl. repeat split; reflexivity.
Qed.

Lemma dependencies_by_argument_threading_witness :
  ∃ rv rc rp,
    pulumi.rt_resources (evaluate minimal_config).1 = [rv; rc; rp] ∧
    reg_name rv = "eks-vpc" ∧ reg_name rc = "eks-cluster" ∧
    reg_name rp = "cluster".
Proof.
  destruct (dependencies_by_argument_threading minimal_config
              (evaluate minimal_config).1
              (final_globals minimal_config 3 6 3
                 "arn:aws:iam::123456789012:role/AWSReservedSSO_Admin")
              eq_refl)
    as (rv & rc & rp & v & c & p & Hres & _).
  exists rv, rc, rp. split; [exact Hres|].
  by injection Hres as <- <- <-.
Defined.

(** C8: whatever the configuration, every cluster the evaluation declares
    has [node_associate_public_ip_address = False], takes its private
    subnets from the VPC's [private_subnet_ids], and has
    [endpoint_public_access = True] and [endpoint_private_access = False];
    an evaluation that returns declares exactly one cluster. *)
Theorem nodes_private_endpoint_public (cfg : gmap string string) :
  (∀ c, c ∈ cluster_args (evaluate cfg).1 →
     eks.node_associate_public_ip_address c = false ∧
     eks.private_subnet_ids c = attr vpc_handle "private_subnet_ids" ∧
     eks.public_subnet_ids c = attr vpc_handle "public_subnet_ids" ∧
     eks.endpoint_public_access c = true ∧
     eks.endpoint_private_access c = false)
  ∧ (∀ g, (evaluate cfg).2 = inr g →
       eks_vpc g = vpc_handle ∧
       ∃ rv c, pulumi.rt_resources (evaluate cfg).1 !! 0%nat = Some rv ∧
               reg_handle rv = vpc_handle ∧
               cluster_args (evaluate cfg).1 = [c]).
Proof.
  destruct (evaluate_outcome cfg) as [mn mx ds arn| |]; simpl.
  - split.
    + intros c Hc. apply list_elem_of_singleton in Hc as ->. done.
    + intros g [= <-]. split; [done|]. by eexists _, _.
  - split; [|done]. intros c Hc. by apply elem_of_nil in Hc.
  - split; [|done]. intros c Hc. by apply elem_of_nil in Hc.
Qed.

(** C9: whatever the configuration, every cluster the evaluation declares
    has authentication mode [API] and access entries all of type
    [STANDARD], and every VPC it declares has DNS hostnames enabled; an
    evaluation that returns declares one VPC and one cluster with one
    access entry. *)
Theorem fixed_modes (cfg : gmap string string) :
  (∀ c, c ∈ cluster_args (evaluate cfg).1 →
     eks.authentication_mode c = eks.API ∧
     ∀ name entry, eks.access_entries c !! name = Some entry →
                   eks.type entry = eks.STANDARD)
  ∧ (∀ v, v ∈ vpc_args (evaluate cfg).1 →
       awsx_ec2.enable_dns_hostnames v = true)
  ∧ (∀ g, (evaluate cfg).2 = inr g →
       ∃ v c, vpc_args (evaluate cfg).1 = [v] ∧
              cluster_args (evaluate cfg).1 = [c] ∧
              size (eks.access_entries c) = 1%nat).
Proof.
  destruct (evaluate_outcome cfg) as [mn mx ds arn| |]; simpl.
  - split; [|split].
    + intros c Hc. apply list_elem_of_singleton in Hc as ->. simpl.
      split; [done|]. intros name entry. unfold admin_entries.
      intros [_ <-]%lookup_singleton_Some. done.
    + intros v Hv. apply list_elem_of_singleton in Hv as ->. done.
    + intros g _. eexists _, _. repeat split.
  - split; [|split]; [intros c Hc; by apply elem_of_nil in Hc
                     |intros a Ha; by apply elem_of_nil in Ha | done].
  - split; [|split]; [intros c Hc; by apply elem_of_nil in Hc
                     |intros a Ha; by apply elem_of_nil in Ha | done].
Qed.

(** C10: two configurations that agree on the six keys the script reads
    evaluate to the same result, the same registrations and the same stack
    outputs; in particular two evaluations of one configuration do. *)
Theorem declarations_depend_on_six_keys (cfg1 cfg2 : gmap string string) :
  (∀ key, key ∈ config_keys → cfg1 !! key = cfg2 !! key) →
  (evaluate cfg1).2 = (evaluate cfg2).2 ∧
  pulumi.rt_resources (evaluate cfg1).1 = pulumi.rt_resources (evaluate cfg2).1 ∧
  pulumi.rt_outputs (evaluate cfg1).1 = pulumi.rt_outputs (evaluate cfg2).1.
Proof.
  intros Hagree.
  assert (Hkey : ∀ key, In key config_keys → cfg1 !! key = cfg2 !! key).
  { intros key Hin. by apply Hagree, list_elem_of_In. }
  change (agree (evaluate cfg1) (evaluate cfg2)).
  unfold evaluate, main.
  erewrite (bind_returns pulumi.Config) by reflexivity.
  erewrite (bind_returns pulumi.Config) by reflexivity. simpl.
  apply bind_agree; [apply get_int_agree; [apply Hkey; simpl; tauto | done] |].
  intros mn rt1 rt2 Hrt.
  apply bind_agree; [apply get_int_agree; [apply Hkey; simpl; tauto | done] |].
  clear rt1 rt2 Hrt; intros mx rt1 rt2 Hrt.
  apply bind_agree; [apply get_int_agree; [apply Hkey; simpl; tauto | done] |].
  clear rt1 rt2 Hrt; intros ds rt1 rt2 Hrt.
  apply bind_agree; [apply get_agree; [apply Hkey; simpl; tauto | done] |].
  clear rt1 rt2 Hrt; intros ity rt1 rt2 Hrt.
  apply bind_agree; [apply get_agree; [apply Hkey; simpl; tauto | done] |].
  clear rt1 rt2 Hrt; intros cidr rt1 rt2 Hrt.
  apply bind_agree; [apply require_agree; [apply Hkey; simpl; tauto | done] |].
  clear rt1 rt2 Hrt; intros arn rt1 rt2 Hrt.
  apply bind_agree; [by apply register_resource_agree |].
  clear rt1 rt2 Hrt; intros hv rt1 rt2 Hrt.
  apply bind_agree; [by apply register_resource_agree |].
  clear rt1 rt2 Hrt; intros hc rt1 rt2 Hrt.
  apply bind_agree; [by apply register_resource_agree |].
  clear rt1 rt2 Hrt; intros hp rt1 rt2 Hrt.
  apply bind_agree; [by apply export_agree |].
  clear rt1 rt2 Hrt; intros [] rt1 rt2 Hrt.
  apply bind_agree; [by apply export_agree |].
  clear rt1 rt2 Hrt; intros [] rt1 rt2 Hrt.
  by apply ret_agree.
Qed.

Lemma declarations_depend_on_six_keys_witness :
  annotated_config ≠ minimal_config ∧
  (evaluate annotated_config).2 = (evaluate minimal_config).2 ∧
  pulumi.rt_resources (evaluate annotated_config).1
  = pulumi.rt_resources (evaluate minimal_config).1 ∧
  pulumi.rt_outputs (evaluate annotated_config).1
  = pulumi.rt_outputs (evaluate minimal_config).1.
Proof.
  split.
  - intros Heq. apply (f_equal (λ m : gmap string string, m !! "owner")) in Heq.
    discriminate Heq.
  - apply (declarations_depend_on_six_keys annotated_config minimal_config).
    intros key Hkey. unfold config_keys in Hkey.
    repeat (apply elem_of_cons in Hkey as [->|Hkey]); try reflexivity.
    by apply elem_of_nil in Hkey.
Defined.

(** * Further properties of the script *)

(** ** The script started in any runtime *)

Lemma get_int_type_error cfg key d v rt :
  cfg !! key = Some v → PyInt.int v = None →
  pulumi.get_int {| pulumi.bag := cfg |} key d rt
  = (rt, inl (pulumi.ConfigTypeError key v "int")).
Proof. unfold pulumi.get_int; simpl. by intros -> ->. Qed.


Lemma type_error_min cfg v :
  cfg !! "minClusterSize" = Some v → PyInt.int v = None →
  evaluate cfg
  = (pulumi.fresh cfg, inl (pulumi.ConfigTypeError "minClusterSize" v "int")).
Proof.
  intros Hk Hv. unfold evaluate, main. erewrite bind_returns; [| reflexivity].
  erewrite bind_raises; [reflexivity | by apply get_int_type_error].
Qed.

Lemma type_error_max cfg mn v :
  int_setting cfg "minClusterSize" 3 = Some mn →
  cfg !! "maxClusterSize" = Some v → PyInt.int v = None →
  evaluate cfg
  = (pulumi.fresh cfg, inl (pulumi.ConfigTypeError "maxClusterSize" v "int")).
Proof.
  intros Hmn Hk Hv. unfold evaluate, main.
  erewrite bind_returns; [| reflexivity]. run_step get_int_returns.
  erewrite bind_raises; [reflexivity | by apply get_int_type_error].
Qed.

Lemma type_error_desired cfg mn mx v :
  int_setting cfg "minClusterSize" 3 = Some mn →
  int_setting cfg "maxClusterSize" 6 = Some mx →
  cfg !! "desiredClusterSize" = Some v → PyInt.int v = None →
  evaluate cfg
  = (pulumi.fresh cfg,
     inl (pulumi.ConfigTypeError "desiredClusterSize" v "int")).
Proof.
  intros Hmn Hmx Hk Hv. unfold evaluate, main.
  erewrite bind_returns; [| reflexivity].
  run_step get_int_returns. run_step get_int_returns.
  erewrite bind_raises; [reflexivity | by apply get_int_type_error].
Qed.

Section AnyRuntime.
Context (rt0 : pulumi.Runtime).
Let cfg := pulumi.rt_config rt0.

Lemma main_returns mn mx ds arn :
  int_setting cfg "minClusterSize" 3 = Some mn →
  int_setting cfg "maxClusterSize" 6 = Some mx →
  int_setting cfg "desiredClusterSize" 3 = Some ds →
  cfg !! "ssoRoleArn" = Some arn →
  main rt0
  = (extended_runtime rt0 mn mx ds arn, inr (final_globals cfg mn mx ds arn)).
Proof.
  intros Hmn Hmx Hds Harn. unfold main.
  erewrite bind_returns; [| reflexivity].
  run_step get_int_returns. run_step get_int_returns. run_step get_int_returns.
  run_step get_returns. run_step get_returns. run_step require_returns.
  unfold mbind, pulumi_bind, pulumi.bind, Vpc, Cluster, Provider,
    pulumi.register_resource, pulumi.export, pulumi.ret; simpl.
  unfold extended_runtime, final_globals. f_equal. f_equal.
  by rewrite <- !app_assoc.
Qed.

Lemma main_raises_min v :
  cfg !! "minClusterSize" = Some v → PyInt.int v = None →
  main rt0 = (rt0, inl (pulumi.ConfigTypeError "minClusterSize" v "int")).
Proof.
  intros Hk Hv. unfold main. erewrite bind_returns; [| reflexivity].
  erewrite bind_raises; [reflexivity | by apply get_int_type_error].
Qed.

Lemma main_raises_max mn v :
  int_setting cfg "minClusterSize" 3 = Some mn →
  cfg !! "maxClusterSize" = Some v → PyInt.int v = None →
  main rt0 = (rt0, inl (pulumi.ConfigTypeError "maxClusterSize" v "int")).
Proof.
  intros Hmn Hk Hv. unfold main. erewrite bind_returns; [| reflexivity].
  run_step get_int_returns.
  erewrite bind_raises; [reflexivity | by apply get_int_type_error].
Qed.

Lemma main_raises_desired mn mx v :
  int_setting cfg "minClusterSize" 3 = Some mn →
  int_setting cfg "maxClusterSize" 6 = Some mx →
  cfg !! "desiredClusterSize" = Some v → PyInt.int v = None →
  main rt0 = (rt0, inl (pulumi.ConfigTypeError "desiredClusterSize" v "int")).
Proof.
  intros Hmn Hmx Hk Hv. unfold main. erewrite bind_returns; [| reflexivity].
  run_step get_int_returns. run_step get_int_returns.
  erewrite bind_raises; [reflexivity | by apply get_int_type_error].
Qed.

Lemma main_raises_missing mn mx ds :
  int_setting cfg "minClusterSize" 3 = Some mn →
  int_setting cfg "maxClusterSize" 6 = Some mx →
  int_setting cfg "desiredClusterSize" 3 = Some ds →
  cfg !! "ssoRoleArn" = None →
  main rt0 = (rt0, inl (pulumi.ConfigMissingError "ssoRoleArn")).
Proof.
  intros Hmn Hmx Hds Harn. unfold main.
  erewrite bind_returns; [| reflexivity].
  run_step get_int_returns. run_step get_int_returns. run_step get_int_returns.
  run_step get_returns. run_step get_returns.
  erewrite bind_raises; [reflexivity | by apply require_raises].
Qed.

Lemma main_cases :
  (∃ e, main rt0 = (rt0, inl e) ∧
        evaluate cfg = (pulumi.fresh cfg, inl e)) ∨
  (∃ mn mx ds arn,
     main rt0 = (extended_runtime rt0 mn mx ds arn,
                 inr (final_globals cfg mn mx ds arn)) ∧
     evaluate cfg = (final_runtime cfg mn mx ds arn,
                     inr (final_globals cfg mn mx ds arn))).
Proof.
  destruct (int_setting cfg "minClusterSize" 3) as [mn|] eqn:Hmn.
  2:{ apply int_setting_None in Hmn as (v & Hk & Hv).
      left. eexists. split; [by apply main_raises_min|].
      by apply type_error_min. }
  destruct (int_setting cfg "maxClusterSize" 6) as [mx|] eqn:Hmx.
  2:{ apply int_setting_None in Hmx as (v & Hk & Hv).
      left. eexists. split; [by eapply main_raises_max|].
      by eapply type_error_max. }
  destruct (int_setting cfg "desiredClusterSize" 3) as [ds|] eqn:Hds.
  2:{ apply int_setting_None in Hds as (v & Hk & Hv).
      left. eexists. split; [by eapply main_raises_desired|].
      by eapply type_error_desired. }
  destruct (cfg !! "ssoRoleArn") as [arn|] eqn:Harn.
  - right. exists mn, mx, ds, arn.
    split; [by apply main_returns | by apply evaluate_returns].
  - left. eexists. split; [by eapply main_raises_missing|].
    by eapply evaluate_missing.
Qed.
End AnyRuntime.


Example doubly_wrong_config_reports_max :
  evaluate doubly_wrong_config
  = (pulumi.fresh doubly_wrong_config,
     inl (pulumi.ConfigTypeError "maxClusterSize" "six" "int")).
Proof. reflexivity. Qed.

(** X2: started in a runtime that already holds registrations and
    outputs, the script returns or raises exactly as in an empty runtime
    with the same configuration; it never changes the configuration; it
    appends the registrations of that run after the ones already there;
    its outputs are those of that run, put over the ones already there;
    and when it raises it leaves the runtime as it found it. *)
Theorem script_extends_runtime (rt0 : pulumi.Runtime) :
  (main rt0).2 = (evaluate (pulumi.rt_config rt0)).2
  ∧ pulumi.rt_config (main rt0).1 = pulumi.rt_config rt0
  ∧ pulumi.rt_resources (main rt0).1
    = (pulumi.rt_resources rt0
       ++ pulumi.rt_resources (evaluate (pulumi.rt_config rt0)).1)%list
  ∧ pulumi.rt_outputs (main rt0).1
    = pulumi.rt_outputs (evaluate (pulumi.rt_config rt0)).1
      ∪ pulumi.rt_outputs rt0
  ∧ (raised (main rt0) → (main rt0).1 = rt0).
Proof.
  destruct (main_cases rt0)
    as [(e & -> & ->)|(mn & mx & ds & arn & -> & ->)]; simpl.
  - repeat split; try done.
    + by rewrite app_nil_r.
    + by rewrite (left_id_L ∅ (∪)).
  - repeat split; try done.
    + unfold stack_outputs.
      by rewrite <- !insert_union_l, (left_id_L ∅ (∪)).
    + by intros [e ?].
Qed.

(** ** What the declarations depend on *)

Lemma declarations_by_settings cfg :
  (pulumi.rt_resources (evaluate cfg).1, pulumi.rt_outputs (evaluate cfg).1)
  = match int_setting cfg "minClusterSize" 3,
          int_setting cfg "maxClusterSize" 6,
          int_setting cfg "desiredClusterSize" 3,
          cfg !! "ssoRoleArn" with
    | Some mn, Some mx, Some ds, Some arn =>
        (stack_resources mn mx ds
           (default "t3.nano" (cfg !! "eksNodeInstanceType"))
           (default "10.40.0.0/16" (cfg !! "vpcNetworkCidr")) arn,
         stack_outputs)
    | _, _, _, _ => ([], ∅)
    end.
Proof.
  destruct (evaluate_outcome cfg) as [mn mx ds arn Hmn Hmx Hds Harn
                                     |Hok Harn|key v Hkey Hk Hv]; simpl.
  - by rewrite Hmn, Hmx, Hds, Harn.
  - rewrite Harn. by repeat case_match.
  - assert (Hnone : ∀ d, int_setting cfg key d = None).
    { intros d. apply int_setting_None. by exists v. }
    unfold int_keys in Hkey.
    repeat (apply elem_of_cons in Hkey as [->|Hkey]);
      [| | | by apply elem_of_nil in Hkey];
      rewrite Hnone; by repeat case_match.
Qed.

Lemma admin_entries_inj arn1 arn2 :
  admin_entries arn1 = admin_entries arn2 → arn1 = arn2.
Proof.
  intros Heq.
  apply (f_equal (λ m : gmap string eks.AccessEntryArgs, m !! "portaladmin"))
    in Heq.
  unfold admin_entries in Heq. rewrite !lookup_singleton_eq in Heq.
  by injection Heq.
Qed.

(** X3: whatever the configuration, a returning evaluation registers the
    resources under the names ["eks-vpc"], ["eks-cluster"] and ["cluster"],
    with the handles bound to [eks_vpc], [eks_cluster] and [cluster], and
    no two registrations share a handle. *)
Theorem resource_names_fixed
    (cfg : gmap string string) (rt : pulumi.Runtime) (g : Globals) :
  evaluate cfg = (rt, inr g) →
  reg_name <$> pulumi.rt_resources rt = ["eks-vpc"; "eks-cluster"; "cluster"]
  ∧ reg_handle <$> pulumi.rt_resources rt = [eks_vpc g; eks_cluster g; cluster g]
  ∧ NoDup (reg_handle <$> pulumi.rt_resources rt).
Proof.
  intros Hrun.
  apply returned_inv in Hrun as (mn & mx & ds & arn & _ & _ & _ & _ & -> & ->).
  simpl. repeat split.
  repeat (apply NoDup_cons; split;
          [rewrite ?elem_of_cons, elem_of_nil; intros H;
           repeat destruct H as [H|H]; by try discriminate H |]).
  apply NoDup_nil_2.
Qed.

Lemma resource_names_fixed_witness :
  reg_name <$> pulumi.rt_resources (evaluate sized_config).1
  = ["eks-vpc"; "eks-cluster"; "cluster"]
  ∧ NoDup (reg_handle <$> pulumi.rt_resources (evaluate sized_config).1).
Proof.
  destruct (resource_names_fixed sized_config
              (evaluate sized_config).1
              (final_globals sized_config 2 10 4
                 "arn:aws:iam::123456789012:role/AWSReservedSSO_Admin")
              eq_refl) as (Hnames & _ & Hnodup).
  by split.
Defined.

(** X4: whatever the configuration, every output among the arguments of a
    registration belongs to a resource registered before it, and every
    exported output belongs to a registered resource. *)
Theorem references_are_declared (cfg : gmap string string) :
  references_earlier [] (pulumi.rt_resources (evaluate cfg).1)
  ∧ ∀ name o,
      pulumi.rt_outputs (evaluate cfg).1 !! name = Some o →
      out_resource o ∈ reg_handle <$> pulumi.rt_resources (evaluate cfg).1.
Proof.
  destruct (evaluate_outcome cfg) as [mn mx ds arn| |]; simpl;
    [|by split..].
  split.
  - repeat (split; [repeat constructor|]). done.
  - intros name o. unfold stack_outputs.
    rewrite lookup_insert. case_decide.
    + intros [= <-]. simpl. rewrite !elem_of_cons. auto.
    + rewrite lookup_insert. case_decide; [|by rewrite lookup_empty].
      intros [= <-]. simpl. rewrite !elem_of_cons. auto.
Qed.



(** X6: the resolved settings can be read back from the declarations: two
    returning evaluations that register the same resources have bound the
    same values to all the names of the script. *)
Theorem settings_recoverable
    (cfg1 cfg2 : gmap string string) (g1 g2 : Globals) :
  (evaluate cfg1).2 = inr g1 →
  (evaluate cfg2).2 = inr g2 →
  pulumi.rt_resources (evaluate cfg1).1 = pulumi.rt_resources (evaluate cfg2).1 →
  g1 = g2.
Proof.
  intros Hg1 Hg2 Hres.
  destruct (evaluate_outcome cfg1) as [mn1 mx1 ds1 arn1| |]; [|done..].
  destruct (evaluate_outcome cfg2) as [mn2 mx2 ds2 arn2| |]; [|done..].
  simpl in *. injection Hg1 as <-. injection Hg2 as <-.
  pose (clusters := λ rs : list Registration,
          head (omap (λ r, match reg_props r with
                           | ClusterProps a => Some a | _ => None end) rs)).
  pose (vpcs := λ rs : list Registration,
          head (omap (λ r, match reg_props r with
                           | VpcProps a => Some a | _ => None end) rs)).
  assert (Hmn : mn1 = mn2)
    by exact (f_equal (λ rs, from_option eks.min_size 0 (clusters rs)) Hres).
  assert (Hmx : mx1 = mx2)
    by exact (f_equal (λ rs, from_option eks.max_size 0 (clusters rs)) Hres).
  assert (Hds : ds1 = ds2)
    by exact (f_equal (λ rs, from_option eks.desired_capacity 0 (clusters rs))
                Hres).
  assert (Hity : default "t3.nano" (cfg1 !! "eksNodeInstanceType")
                 = default "t3.nano" (cfg2 !! "eksNodeInstanceType"))
    by exact (f_equal (λ rs, from_option eks.instance_type "" (clusters rs))
                Hres).
  assert (Hcidr : default "10.40.0.0/16" (cfg1 !! "vpcNetworkCidr")
                  = default "10.40.0.0/16" (cfg2 !! "vpcNetworkCidr"))
    by exact (f_equal (λ rs, from_option awsx_ec2.cidr_block "" (vpcs rs))
                Hres).
  assert (Hentries : admin_entries arn1 = admin_entries arn2)
    by exact (f_equal (λ rs, from_option eks.access_entries ∅ (clusters rs))
                Hres).
  apply admin_entries_inj in Hentries.
  unfold final_globals. congruence.
Qed.

Lemma settings_recoverable_witness :
  final_globals annotated_config 3 6 3
    "arn:aws:iam::123456789012:role/AWSReservedSSO_Admin"
  = final_globals minimal_config 3 6 3
      "arn:aws:iam::123456789012:role/AWSReservedSSO_Admin".
Proof.
  apply (settings_recoverable annotated_config minimal_config); reflexivity.
Defined.

(** ** Which key reaches which declaration *)

Lemma int_setting_insert_ne cfg k v key d :
  k ≠ key → int_setting (<[k := v]> cfg) key d = int_setting cfg key d.
Proof. intros Hne. unfold int_setting. by rewrite lookup_insert_ne. Qed.

Lemma returned_by_settings cfg :
  returned (evaluate cfg) ↔
  is_Some (int_setting cfg "minClusterSize" 3) ∧
  is_Some (int_setting cfg "maxClusterSize" 6) ∧
  is_Some (int_setting cfg "desiredClusterSize" 3) ∧
  is_Some (cfg !! "ssoRoleArn").
Proof.
  split.
  - intros [g Hg]. destruct (evaluate cfg) as [rt res] eqn:Hrun.
    simpl in Hg. subst res.
    apply returned_inv in Hrun as (mn & mx & ds & arn & ? & ? & ? & ? & _).
    by repeat split; eexists.
  - intros ([mn Hmn] & [mx Hmx] & [ds Hds] & [arn Harn]).
    rewrite (evaluate_returns cfg mn mx ds arn) by done. by eexists.
Qed.

Lemma resources_by_settings cfg :
  pulumi.rt_resources (evaluate cfg).1
  = match int_setting cfg "minClusterSize" 3,
          int_setting cfg "maxClusterSize" 6,
          int_setting cfg "desiredClusterSize" 3,
          cfg !! "ssoRoleArn" with
    | Some mn, Some mx, Some ds, Some arn =>
        stack_resources mn mx ds
          (default "t3.nano" (cfg !! "eksNodeInstanceType"))
          (default "10.40.0.0/16" (cfg !! "vpcNetworkCidr")) arn
    | _, _, _, _ => []
    end.
Proof.
  pose proof (f_equal fst (declarations_by_settings cfg)) as Hfst.
  simpl in Hfst. rewrite Hfst. by repeat case_match.
Qed.

Lemma outputs_by_settings cfg :
  pulumi.rt_outputs (evaluate cfg).1
  = match int_setting cfg "minClusterSize" 3,
          int_setting cfg "maxClusterSize" 6,
          int_setting cfg "desiredClusterSize" 3,
          cfg !! "ssoRoleArn" with
    | Some mn, Some mx, Some ds, Some arn => stack_outputs
    | _, _, _, _ => ∅
    end.
Proof.
  pose proof (f_equal snd (declarations_by_settings cfg)) as Hsnd.
  simpl in Hsnd. rewrite Hsnd. by repeat case_match.
Qed.

Lemma vpc_args_final cfg mn mx ds arn :
  vpc_args (final_runtime cfg mn mx ds arn)
  = [ {| awsx_ec2.enable_dns_hostnames := true;
         awsx_ec2.cidr_block :=
           default "10.40.0.0/16" (cfg !! "vpcNetworkCidr") |} ].
Proof. reflexivity. Qed.

(** X7: of two returning evaluations, the VPC declarations are the same
    exactly when the resolved [vpcNetworkCidr] values are: no other key
    reaches the VPC. *)
Theorem vpc_depends_only_on_cidr (cfg1 cfg2 : gmap string string) :
  returned (evaluate cfg1) → returned (evaluate cfg2) →
  (vpc_args (evaluate cfg1).1 = vpc_args (evaluate cfg2).1 ↔
   default "10.40.0.0/16" (cfg1 !! "vpcNetworkCidr")
   = default "10.40.0.0/16" (cfg2 !! "vpcNetworkCidr")).
Proof.
  intros [g1 Hg1] [g2 Hg2].
  destruct (evaluate_outcome cfg1) as [mn1 mx1 ds1 arn1| |]; [|done..].
  destruct (evaluate_outcome cfg2) as [mn2 mx2 ds2 arn2| |]; [|done..].
  cbn [fst]. rewrite !vpc_args_final. split.
  - intros Hv.
    exact (f_equal (λ l, from_option awsx_ec2.cidr_block "" (head l)) Hv).
  - by intros ->.
Qed.

Lemma vpc_depends_only_on_cidr_witness :
  sized_config ≠ cidr_config ∧
  vpc_args (evaluate sized_config).1 = vpc_args (evaluate cidr_config).1.
Proof.
  split.
  - intros Heq.
    apply (f_equal (λ m : gmap string string, m !! "minClusterSize")) in Heq.
    discriminate Heq.
  - apply (vpc_depends_only_on_cidr sized_config cidr_config);
      [by eexists | by eexists | reflexivity].
Defined.

(** X8: setting [vpcNetworkCidr] to any text changes neither whether the
    evaluation returns, nor the cluster and provider declarations, nor the
    outputs; every VPC then declared has that text as its [cidr_block]. *)
Theorem cidr_reaches_only_the_vpc (cfg : gmap string string) (v : string) :
  (returned (evaluate (<["vpcNetworkCidr" := v]> cfg)) ↔ returned (evaluate cfg))
  ∧ cluster_args (evaluate (<["vpcNetworkCidr" := v]> cfg)).1
    = cluster_args (evaluate cfg).1
  ∧ provider_args (evaluate (<["vpcNetworkCidr" := v]> cfg)).1
    = provider_args (evaluate cfg).1
  ∧ pulumi.rt_outputs (evaluate (<["vpcNetworkCidr" := v]> cfg)).1
    = pulumi.rt_outputs (evaluate cfg).1
  ∧ ∀ a, a ∈ vpc_args (evaluate (<["vpcNetworkCidr" := v]> cfg)).1 →
         awsx_ec2.cidr_block a = v.
Proof.
  unfold cluster_args, provider_args, vpc_args.
  rewrite !returned_by_settings, !outputs_by_settings, !resources_by_settings.
  rewrite !int_setting_insert_ne by done.
  rewrite !(lookup_insert_ne _ "vpcNetworkCidr" "eksNodeInstanceType") by done.
  rewrite !(lookup_insert_ne _ "vpcNetworkCidr" "ssoRoleArn") by done.
  rewrite lookup_insert_eq. split; [done|].
  destruct (int_setting cfg "minClusterSize" 3),
    (int_setting cfg "maxClusterSize" 6),
    (int_setting cfg "desiredClusterSize" 3),
    (cfg !! "ssoRoleArn"); simpl;
    (split; [done|]); (split; [done|]); (split; [done|]);
    intros a Ha; try (by apply elem_of_nil in Ha).
  by apply list_elem_of_singleton in Ha as ->.
Qed.

(** X9: replacing the value of [ssoRoleArn] in a configuration that has
    one changes neither whether the evaluation returns, nor the VPC and
    provider declarations, nor the outputs, nor any argument of the cluster
    other than its access entries. *)
Theorem role_reaches_only_access_entries
    (cfg : gmap string string) (arn' : string) :
  is_Some (cfg !! "ssoRoleArn") →
  (returned (evaluate (<["ssoRoleArn" := arn']> cfg)) ↔ returned (evaluate cfg))
  ∧ vpc_args (evaluate (<["ssoRoleArn" := arn']> cfg)).1
    = vpc_args (evaluate cfg).1
  ∧ provider_args (evaluate (<["ssoRoleArn" := arn']> cfg)).1
    = provider_args (evaluate cfg).1
  ∧ pulumi.rt_outputs (evaluate (<["ssoRoleArn" := arn']> cfg)).1
    = pulumi.rt_outputs (evaluate cfg).1
  ∧ Forall2 same_but_access_entries
      (cluster_args (evaluate (<["ssoRoleArn" := arn']> cfg)).1)
      (cluster_args (evaluate cfg).1).
Proof.
  intros [arn Harn].
  unfold cluster_args, provider_args, vpc_args.
  rewrite !returned_by_settings, !outputs_by_settings, !resources_by_settings.
  rewrite !int_setting_insert_ne by done.
  rewrite !(lookup_insert_ne _ "ssoRoleArn" "eksNodeInstanceType") by done.
  rewrite !(lookup_insert_ne _ "ssoRoleArn" "vpcNetworkCidr") by done.
  rewrite lookup_insert_eq, Harn. split.
  { split; intros (? & ? & ? & _); repeat split; try done; by eexists. }
  destruct (int_setting cfg "minClusterSize" 3),
    (int_setting cfg "maxClusterSize" 6),
    (int_setting cfg "desiredClusterSize" 3); simpl;
    (split; [done|]); (split; [done|]); (split; [done|]);
    by repeat constructor.
Qed.

Lemma role_reaches_only_access_entries_witness :
  vpc_args (evaluate (<["ssoRoleArn" := "arn:aws:iam::1:role/ops"]>
                        sized_config)).1
  = vpc_args (evaluate sized_config).1
  ∧ Forall2 same_but_access_entries
      (cluster_args (evaluate (<["ssoRoleArn" := "arn:aws:iam::1:role/ops"]>
                                 sized_config)).1)
      (cluster_args (evaluate sized_config).1).
Proof.
  destruct (role_reaches_only_access_entries sized_config
              "arn:aws:iam::1:role/ops") as (_ & Hvpc & _ & _ & Hcl).
  - by eexists.
  - by split.
Defined.
